(** * tiny-tensorrt: version compatibility layer and INT8 calibrator

    A shallow embedding of [src/trt_version_compat.h], of the version-guarded
    fragments of [Trt.h]/[Trt.cpp] quoted in the compatibility guide, and of
    the [TrtInt8Calibrator] class declared in [Int8Calibrator.h].

    The preprocessor constants [NV_TENSORRT_MAJOR], [NV_TENSORRT_MINOR] and
    [NV_TENSORRT_PATCH] come from [NvInferVersion.h], which belongs to the
    native library; every macro is therefore a function of a version triplet.
    Preprocessor arithmetic is done in [intmax_t] and the macros only compare,
    so the constants are modelled as [Z] without any wrap-around. *)

From Stdlib Require Import ZArith Lia Bool.
From stdpp Require Import base option list strings gmap.

Local Open Scope Z_scope.

(* ===================================================================== *)
(** ** The version macros of [trt_version_compat.h]                      *)
(* ===================================================================== *)

Module VersionCompat.

(** The three constants of [NvInferVersion.h]. *)
Record TrtVersion : Type := mkVersion {
  NV_TENSORRT_MAJOR : Z;
  NV_TENSORRT_MINOR : Z;
  NV_TENSORRT_PATCH : Z
}.

Section Macros.
Variable v : TrtVersion.

Local Abbreviation MAJOR := (NV_TENSORRT_MAJOR v).
Local Abbreviation MINOR := (NV_TENSORRT_MINOR v).
Local Abbreviation PATCH := (NV_TENSORRT_PATCH v).

(** [#define TRT_VERSION_GE(major, minor, patch)]: three disjuncts joined by
    [||], each a conjunction of comparisons. *)
Definition TRT_VERSION_GE (major minor patch : Z) : bool :=
  (MAJOR >? major)
  || ((MAJOR =? major) && (MINOR >? minor))
  || ((MAJOR =? major) && (MINOR =? minor) && (PATCH >=? patch)).

(** [#define TRT_VERSION_LT(major, minor, patch) (!TRT_VERSION_GE(...))]. *)
Definition TRT_VERSION_LT (major minor patch : Z) : bool :=
  negb (TRT_VERSION_GE major minor patch).

(** What [TRT_NOEXCEPT] expands to: the keyword or nothing. *)
Inductive specifier : Type := Noexcept | EmptySpecifier.

(** [#if NV_TENSORRT_MAJOR >= 8 / #define TRT_NOEXCEPT noexcept / #else /
    #define TRT_NOEXCEPT / #endif]. *)
Definition TRT_NOEXCEPT : specifier :=
  if MAJOR >=? 8 then Noexcept else EmptySpecifier.

(** [#ifndef IS_NOEXCEPT / #define IS_NOEXCEPT TRT_NOEXCEPT]. *)
Definition IS_NOEXCEPT : specifier := TRT_NOEXCEPT.

(** [#define TRT_LEGACY_DESTROY (NV_TENSORRT_MAJOR < 8)]. *)
Definition TRT_LEGACY_DESTROY : bool := MAJOR <? 8.

(** [#define TRT_HAS_WORKSPACE_SIZE_API
    (NV_TENSORRT_MAJOR < 8 || (NV_TENSORRT_MAJOR == 8 && NV_TENSORRT_MINOR < 4))]. *)
Definition TRT_HAS_WORKSPACE_SIZE_API : bool :=
  (MAJOR <? 8) || ((MAJOR =? 8) && (MINOR <? 4)).

(** [#define TRT_HAS_DLA_SUPPORT (NV_TENSORRT_MAJOR >= 8)]. *)
Definition TRT_HAS_DLA_SUPPORT : bool := MAJOR >=? 8.

(** [#define TRT_HAS_DYNAMIC_SHAPES (NV_TENSORRT_MAJOR >= 6)]. *)
Definition TRT_HAS_DYNAMIC_SHAPES : bool := MAJOR >=? 6.

(** [#define TRT_LEGACY_ENQUEUE (NV_TENSORRT_MAJOR < 8)]. *)
Definition TRT_LEGACY_ENQUEUE : bool := MAJOR <? 8.
End Macros.

(** Lexicographic comparison of two triplets, most significant component
    first.  This is the order [TRT_VERSION_GE] is meant to decide; it is
    written independently of the macro. *)
Definition lex_compare (x y : Z * Z * Z) : comparison :=
  let '(x1, x2, x3) := x in
  let '(y1, y2, y3) := y in
  match x1 ?= y1 with
  | Eq => match x2 ?= y2 with
          | Eq => x3 ?= y3
          | c => c
          end
  | c => c
  end.

Definition triplet (v : TrtVersion) : Z * Z * Z :=
  (NV_TENSORRT_MAJOR v, NV_TENSORRT_MINOR v, NV_TENSORRT_PATCH v).

(** [x >= y] in the lexicographic order. *)
Definition lex_ge (x y : Z * Z * Z) : Prop := lex_compare x y <> Lt.

(** *** The capability descriptor

    The four fields of the descriptor and the guard each one is read from:
    - ownership: [TrtDestroyer] ([#if NV_TENSORRT_MAJOR < 8 t->destroy();
      #else delete t;]), the same condition as [TRT_LEGACY_DESTROY];
    - enqueue signature: [TRT_LEGACY_ENQUEUE];
    - workspace mechanism: [TRT_HAS_WORKSPACE_SIZE_API];
    - build mode: the [#if NV_TENSORRT_MAJOR < 8] around the build call. *)
Inductive ownership_model : Type := ExplicitDestroy | AutomaticRelease.
Inductive enqueue_signature_variant : Type := LegacyEnqueue | NoexceptEnqueue.
Inductive workspace_config_mechanism : Type := LegacySetter | PoolLimitAPI.
Inductive build_mode : Type := BuildThenSerialize | BuildSerializedDirect.

Record CapabilityDescriptor : Type := mkDescriptor {
  ownership : ownership_model;
  enqueue_signature : enqueue_signature_variant;
  workspace_mechanism : workspace_config_mechanism;
  build_sequence : build_mode
}.

Definition descriptor_of (v : TrtVersion) : CapabilityDescriptor :=
  {| ownership := if TRT_LEGACY_DESTROY v then ExplicitDestroy else AutomaticRelease;
     enqueue_signature := if TRT_LEGACY_ENQUEUE v then LegacyEnqueue else NoexceptEnqueue;
     workspace_mechanism := if TRT_HAS_WORKSPACE_SIZE_API v then LegacySetter else PoolLimitAPI;
     build_sequence := if NV_TENSORRT_MAJOR v <? 8 then BuildThenSerialize else BuildSerializedDirect |}.

(** The two ways a resolution could end.  The header holds no [#error]
    directive and no test of a version floor: every macro above is defined for
    every triplet, so no branch of [resolve] produces [UnsupportedVersion]. *)
Inductive resolution : Type :=
  | Resolved (d : CapabilityDescriptor)
  | UnsupportedVersion.

Definition resolve (v : TrtVersion) : resolution := Resolved (descriptor_of v).

(** Releases used as examples: one below the documented floor, the first and
    the last of the legacy workspace setter's, and the first without it. *)
Definition trt_6_0_0 : TrtVersion := mkVersion 6 0 0.
Definition trt_8_0_0 : TrtVersion := mkVersion 8 0 0.
Definition trt_8_4_0 : TrtVersion := mkVersion 8 4 0.
Definition trt_10_0_0 : TrtVersion := mkVersion 10 0 0.

End VersionCompat.

(* ===================================================================== *)
(** ** The version-guarded parts of the [Trt] wrapper                    *)
(* ===================================================================== *)

Module Trt.
Import VersionCompat.

(** Calls the wrapper makes on the native builder configuration ([mConfig]).
    [workspaceSize] is a [size_t] handed on unchanged. *)
Inductive MemoryPoolType : Type := kWORKSPACE.

Inductive config_call : Type :=
  | setMaxWorkspaceSize (workspaceSize : Z)
  | setMemoryPoolLimit (pool : MemoryPoolType) (poolSize : Z).

(** The guard around the member function:
    [#if !(NV_TENSORRT_MAJOR >= 8 && NV_TENSORRT_MINOR >= 4)]. *)
Definition SetWorkpaceSize_compiled (v : TrtVersion) : bool :=
  negb ((NV_TENSORRT_MAJOR v >=? 8) && (NV_TENSORRT_MINOR v >=? 4)).

(** [void Trt::SetWorkpaceSize(size_t workspaceSize)
      { mConfig->setMaxWorkspaceSize(workspaceSize); }]
    [None] when the guard removes the member function from the build; the
    guard has no [#else] branch. *)
Definition SetWorkpaceSize (v : TrtVersion) (workspaceSize : Z)
  : option (list config_call) :=
  if SetWorkpaceSize_compiled v
  then Some [setMaxWorkspaceSize workspaceSize]
  else None.

(** The configuration calls the wrapper performs for a requested workspace
    limit: those of [SetWorkpaceSize] where it exists, none where it does not
    (there the guide leaves the memory pool limit to the user, who sets it on
    the config object directly). *)
Definition workspace_calls (v : TrtVersion) (workspaceSize : Z) : list config_call :=
  default [] (SetWorkpaceSize v workspaceSize).

(** The call the descriptor's mechanism stands for. *)
Definition mechanism_call (m : workspace_config_mechanism) (workspaceSize : Z)
  : config_call :=
  match m with
  | LegacySetter => setMaxWorkspaceSize workspaceSize
  | PoolLimitAPI => setMemoryPoolLimit kWORKSPACE workspaceSize
  end.

(** The workspace of the guide's example, [1 << 30]. *)
Definition one_gib : Z := Z.shiftl 1 30.

End Trt.

(* ===================================================================== *)
(** ** [TrtInt8Calibrator] ([Int8Calibrator.h])                          *)
(* ===================================================================== *)

Module Int8Calibrator.
Import VersionCompat.

(** The private members of the class, with the types of the header ([int] as
    [Z], [std::vector<std::string>] as a list of paths, [std::vector<char>] as
    bytes).  [mDeviceBatchData] holds raw device pointers and is left out. *)
Record TrtInt8Calibrator : Type := mkCalibrator {
  mCalibratorType : string;
  mBatchSize : Z;
  mFileList : list string;
  mCalibrateCachePath : string;
  mCurBatchIdx : Z;
  mCount : Z;
  mCalibrationCache : list Byte.byte
}.

(** [int getBatchSize() const]. *)
Definition getBatchSize (self : TrtInt8Calibrator) : Z := mBatchSize self.

Definition set_mCurBatchIdx (idx : Z) (self : TrtInt8Calibrator) : TrtInt8Calibrator :=
  {| mCalibratorType := mCalibratorType self;
     mBatchSize := mBatchSize self;
     mFileList := mFileList self;
     mCalibrateCachePath := mCalibrateCachePath self;
     mCurBatchIdx := idx;
     mCount := mCount self;
     mCalibrationCache := mCalibrationCache self |}.

(** A staged batch, as the sample files it was read from, in order. *)
Definition CalibrationBatch : Type := list string.

(** Modelled from the spec: the body of [TrtInt8Calibrator::getBatch]
    ([Int8Calibrator.cpp] is not part of the sources at hand; the header only
    declares [bool getBatch(void *bindings[], const char *names[], int
    nbBindings)] and the members [mCurBatchIdx = 0], [mBatchSize],
    [mFileList]).  The spec: "stateful, single cursor over the dataset,
    advancing by batchSize samples per call; returns none once the cursor
    would exceed dataset length (signals calibration completion to the caller
    -- this is the sole termination condition, not an error)", "the final
    batch contains the remaining L mod B (or B, if divisible) samples in
    original dataset order", and, for 10 files and batch size 4, "batches of
    sizes [4,4,2] then signals completion".  So a call whose cursor has left
    the dataset returns none ([false]) and changes nothing; any other call
    yields the next [mBatchSize] samples from the cursor on, or those that
    remain, and moves the cursor by [mBatchSize].  The spec gives the cursor
    no width, so the addition is exact. *)
Definition getBatch (self : TrtInt8Calibrator)
  : option CalibrationBatch * TrtInt8Calibrator :=
  if Z.of_nat (length (mFileList self)) <=? mCurBatchIdx self
  then (None, self)
  else (Some (take (Z.to_nat (mBatchSize self))
                   (drop (Z.to_nat (mCurBatchIdx self)) (mFileList self))),
        set_mCurBatchIdx (mCurBatchIdx self + mBatchSize self) self).

(** The calibrator after [k] calls of [getBatch]. *)
Fixpoint after_calls (k : nat) (self : TrtInt8Calibrator) : TrtInt8Calibrator :=
  match k with
  | O => self
  | S k' => after_calls k' (snd (getBatch self))
  end.





(** *** The calibration cache *)
Section Cache.
Context {Fingerprint : Type} `{EqDecision Fingerprint}.

(** What the store holds at a path: a file that cannot be read, or an entry
    made of the fingerprint it was produced for and the blob.  A path with
    no file is a path the map has no binding for. *)
Inductive cache_file : Type :=
  | Unreadable
  | Entry (stored : Fingerprint) (blob : list Byte.byte).

(** Modelled from the spec: the cache store behind
    [readCalibrationCache]/[writeCalibrationCache], whose bodies are in
    [Int8Calibrator.cpp].  The spec: "load returns none (treated as a miss,
    not an error) if the store is absent, unreadable, or its stored
    fingerprint does not match". *)
Definition load (fp : Fingerprint) (path : string) (store : gmap string cache_file)
  : option (list Byte.byte) :=
  match store !! path with
  | Some (Entry stored blob) => if decide (stored = fp) then Some blob else None
  | Some Unreadable => None
  | None => None
  end.

(** Modelled from the spec: "save overwrites any prior entry for that
    fingerprint; it is not additive/append". *)
Definition save (fp : Fingerprint) (bytes : list Byte.byte) (path : string)
    (store : gmap string cache_file) : gmap string cache_file :=
  <[path := Entry fp bytes]> store.

(** The fingerprint: "hash of calibrator type + batch size + dataset
    identity".  The hash itself is not given. *)
Variable hash : string -> Z -> list string -> Fingerprint.

Definition fingerprint (self : TrtInt8Calibrator) : Fingerprint :=
  hash (mCalibratorType self) (mBatchSize self) (mFileList self).

(** Modelled from the spec: "readCache() -> Option<bytes> -- delegates to
    Cache.load(fingerprint)", on the store at [mCalibrateCachePath]. *)
Definition readCalibrationCache (self : TrtInt8Calibrator)
    (store : gmap string cache_file) : option (list Byte.byte) :=
  load (fingerprint self) (mCalibrateCachePath self) store.

(** Modelled from the spec: "writeCache(bytes) -- delegates to
    Cache.save(fingerprint, bytes)". *)
Definition writeCalibrationCache (self : TrtInt8Calibrator)
    (cache : list Byte.byte) (store : gmap string cache_file)
  : gmap string cache_file :=
  save (fingerprint self) cache (mCalibrateCachePath self) store.
End Cache.

Arguments cache_file : clear implicits.

(** *** Interface negotiation *)
Section InterfaceInfo.
(** The (name, version) pair of the answer. *)
Record InterfaceInfo : Type := mkInterfaceInfo {
  info_name : string;
  info_version : Z
}.

(** The two constants of the answer; their values are in the missing body. *)
Variables (interface_name : string) (interface_version : Z).

(** Modelled from the spec: the body of [getInterfaceInfo], "a fixed (name,
    version) pair identifying this controller's protocol version -- purely
    declarative, no state".  The guard is the header's: the member function
    is declared under [#if NV_TENSORRT_MAJOR >= 10] only, so on any other
    version there is nothing to call ([None]). *)
Definition getInterfaceInfo (v : TrtVersion) (self : TrtInt8Calibrator)
  : option InterfaceInfo :=
  if NV_TENSORRT_MAJOR v >=? 10
  then Some {| info_name := interface_name; info_version := interface_version |}
  else None.
End InterfaceInfo.

(** Two stores with a file at the cache path: one whose entry was produced
    for fingerprint 1, one that cannot be read. *)
Definition stale_store : gmap string (cache_file Z) :=
  {["calibration.cache"%string := Entry 1 [Byte.x2a]]}.

Definition unreadable_store : gmap string (cache_file Z) :=
  {["calibration.cache"%string := Unreadable]}.

(** A calibrator over ten sample files with batch size 4, freshly built. *)
Definition ten_files : list string :=
  ["s0.npy"; "s1.npy"; "s2.npy"; "s3.npy"; "s4.npy";
   "s5.npy"; "s6.npy"; "s7.npy"; "s8.npy"; "s9.npy"]%string.

Definition calibrator_10_4 : TrtInt8Calibrator :=
  {| mCalibratorType := "EntropyCalibratorV2";
     mBatchSize := 4;
     mFileList := ten_files;
     mCalibrateCachePath := "calibration.cache";
     mCurBatchIdx := 0;
     mCount := 10;
     mCalibrationCache := [] |}.

End Int8Calibrator.

(* ===================================================================== *)
(** ** Comparing two releases with [TRT_VERSION_GE]                      *)
(* ===================================================================== *)

Module VersionOrder.
Import VersionCompat.

(** [TRT_VERSION_GE] of a build against release [v], asked about the triplet
    of release [w]: is [v] at least [w]? *)
Definition at_least (v w : TrtVersion) : bool :=
  TRT_VERSION_GE v (NV_TENSORRT_MAJOR w) (NV_TENSORRT_MINOR w) (NV_TENSORRT_PATCH w).

(** The three descriptors that releases resolve to. *)
Definition legacy_descriptor : CapabilityDescriptor :=
  mkDescriptor ExplicitDestroy LegacyEnqueue LegacySetter BuildThenSerialize.

Definition transitional_descriptor : CapabilityDescriptor :=
  mkDescriptor AutomaticRelease NoexceptEnqueue LegacySetter BuildSerializedDirect.

Definition modern_descriptor : CapabilityDescriptor :=
  mkDescriptor AutomaticRelease NoexceptEnqueue PoolLimitAPI BuildSerializedDirect.

(** More releases used as examples. *)
Definition trt_7_2_3 : TrtVersion := mkVersion 7 2 3.
Definition trt_8_3_1 : TrtVersion := mkVersion 8 3 1.
Definition trt_8_6_1 : TrtVersion := mkVersion 8 6 1.
Definition trt_9_0_0 : TrtVersion := mkVersion 9 0 0.

End VersionOrder.

(* ===================================================================== *)
(** ** Guards written in place in [Trt.h] and the plugin headers         *)
(* ===================================================================== *)

Module InlineGuards.
Import VersionCompat.

(** How [TrtDestroyer] lets go of a native object. *)
Inductive release_action : Type := CallDestroy | DeleteObject.

(** [void operator()(T* t)] of [TrtDestroyer]:
    [#if NV_TENSORRT_MAJOR < 8 / t->destroy(); / #else / delete t; / #endif]. *)
Definition TrtDestroyer (v : TrtVersion) : release_action :=
  if NV_TENSORRT_MAJOR v <? 8 then CallDestroy else DeleteObject.

(** The type of the [outputs] parameter of a plugin's [enqueue]:
    [void **outputs] or [void * const * outputs]. *)
Inductive outputs_parameter : Type := VoidPtrPtr | VoidPtrConstPtr.

Record enqueue_declaration : Type := mkEnqueue {
  enqueue_outputs : outputs_parameter;
  enqueue_specifier : specifier
}.

(** The conditional declaration in the plugin headers:
    [#if NV_TENSORRT_MAJOR < 8] declares [enqueue(..., void **outputs, ...)
    override], [#else] declares [enqueue(..., void * const * outputs, ...)
    noexcept override]. *)
Definition plugin_enqueue (v : TrtVersion) : enqueue_declaration :=
  if NV_TENSORRT_MAJOR v <? 8
  then {| enqueue_outputs := VoidPtrPtr; enqueue_specifier := EmptySpecifier |}
  else {| enqueue_outputs := VoidPtrConstPtr; enqueue_specifier := Noexcept |}.

(** The three-way pattern of the guide:
    [#if NV_TENSORRT_MAJOR >= 10 / #elif NV_TENSORRT_MAJOR >= 8 / #else]. *)
Inductive code_path : Type := Trt10Code | Trt8And9Code | Trt7Code.

Definition version_pattern (v : TrtVersion) : code_path :=
  if NV_TENSORRT_MAJOR v >=? 10 then Trt10Code
  else if NV_TENSORRT_MAJOR v >=? 8 then Trt8And9Code
  else Trt7Code.

End InlineGuards.

(* ===================================================================== *)
(** ** The declaration of [TrtInt8Calibrator]                            *)
(* ===================================================================== *)

Module CalibratorDeclaration.
Import VersionCompat.

(** [Int8Calibrator.h] defines [TRT_NOEXCEPT] for itself, with the guard
    [#if NV_TENSORRT_MAJOR >= 8] and no [#ifndef] around it. *)
Definition TRT_NOEXCEPT (v : TrtVersion) : specifier :=
  if NV_TENSORRT_MAJOR v >=? 8 then Noexcept else EmptySpecifier.

(** One overriding member function of the class: its name, whether it is
    declared [const], and what stands between its parameter list and
    [override]. *)
Record override_declaration : Type := mkOverride {
  override_name : string;
  override_const : bool;
  override_specifier : specifier
}.

(** The overriding member functions in the order of the header; the last one
    stands inside [#if NV_TENSORRT_MAJOR >= 10 ... #endif]. *)
Definition overrides (v : TrtVersion) : list override_declaration :=
  [ mkOverride "getBatchSize" true (TRT_NOEXCEPT v);
    mkOverride "getBatch" false (TRT_NOEXCEPT v);
    mkOverride "readCalibrationCache" false (TRT_NOEXCEPT v);
    mkOverride "writeCalibrationCache" false (TRT_NOEXCEPT v);
    mkOverride "getAlgorithm" false (TRT_NOEXCEPT v) ]
  ++ (if NV_TENSORRT_MAJOR v >=? 10
      then [ mkOverride "getInterfaceInfo" true (TRT_NOEXCEPT v) ]
      else []).

End CalibratorDeclaration.

(* ===================================================================== *)
(** ** The two headers as preprocessor directives                        *)
(* ===================================================================== *)

Module Preprocessor.
Import VersionCompat.

(** A macro definition: the parameter names of a function-like macro ([None]
    for an object-like one) and the replacement list, as its tokens separated
    by single spaces. *)
Record macro : Type := mkMacro {
  parameters : option (list string);
  replacement : string
}.

#[global] Instance macro_eq_dec : EqDecision macro.
Proof. solve_decision. Defined.

Definition object_like (tokens : string) : macro :=
  {| parameters := None; replacement := tokens |}.

Definition function_like (params : list string) (tokens : string) : macro :=
  {| parameters := Some params; replacement := tokens |}.

(** The token a [specifier] is written as. *)
Definition specifier_tokens (s : specifier) : string :=
  match s with
  | Noexcept => "noexcept"
  | EmptySpecifier => ""
  end.

(** [#define name ...] on a table of macros.  Defining a name again is
    accepted only with the same parameters and the same replacement list;
    any other redefinition makes the translation unit ill-formed ([None]). *)
Definition define (name : string) (m : macro) (env : gmap string macro)
  : option (gmap string macro) :=
  match env !! name with
  | None => Some (<[name := m]> env)
  | Some m' => if decide (m' = m) then Some env else None
  end.

(** [#ifndef name / #define name ... / #endif]. *)
Definition define_if_undefined (name : string) (m : macro) (env : gmap string macro)
  : gmap string macro :=
  match env !! name with
  | None => <[name := m]> env
  | Some _ => env
  end.

(** The names [trt_version_compat.h] defines besides its include guard. *)
Definition compat_names : list string :=
  [ "TRT_VERSION_GE"; "TRT_VERSION_LT"; "TRT_NOEXCEPT"; "IS_NOEXCEPT";
    "TRT_LEGACY_DESTROY"; "TRT_HAS_WORKSPACE_SIZE_API"; "TRT_HAS_DLA_SUPPORT";
    "TRT_HAS_DYNAMIC_SHAPES"; "TRT_LEGACY_ENQUEUE" ]%string.

(** [trt_version_compat.h], directive by directive, for the version that
    [NvInferVersion.h] announces.  The [#include] of that native header is
    not followed. *)
Definition trt_version_compat_h (v : TrtVersion) (env : gmap string macro)
  : option (gmap string macro) :=
  match env !! "TRT_VERSION_COMPAT_H"%string with
  | Some _ => Some env
  | None =>
    let env := <["TRT_VERSION_COMPAT_H"%string := object_like ""]> env in
    env ← define "TRT_VERSION_GE"
            (function_like ["major"; "minor"; "patch"]%string
               "( ( NV_TENSORRT_MAJOR > ( major ) ) || ( NV_TENSORRT_MAJOR == ( major ) && NV_TENSORRT_MINOR > ( minor ) ) || ( NV_TENSORRT_MAJOR == ( major ) && NV_TENSORRT_MINOR == ( minor ) && NV_TENSORRT_PATCH >= ( patch ) ) )")
            env;
    env ← define "TRT_VERSION_LT"
            (function_like ["major"; "minor"; "patch"]%string
               "( ! TRT_VERSION_GE ( major , minor , patch ) )")
            env;
    env ← define "TRT_NOEXCEPT"
            (object_like (specifier_tokens (VersionCompat.TRT_NOEXCEPT v))) env;
    let env := define_if_undefined "IS_NOEXCEPT" (object_like "TRT_NOEXCEPT") env in
    env ← define "TRT_LEGACY_DESTROY" (object_like "( NV_TENSORRT_MAJOR < 8 )") env;
    env ← define "TRT_HAS_WORKSPACE_SIZE_API"
            (object_like
               "( NV_TENSORRT_MAJOR < 8 || ( NV_TENSORRT_MAJOR == 8 && NV_TENSORRT_MINOR < 4 ) )")
            env;
    env ← define "TRT_HAS_DLA_SUPPORT" (object_like "( NV_TENSORRT_MAJOR >= 8 )") env;
    env ← define "TRT_HAS_DYNAMIC_SHAPES" (object_like "( NV_TENSORRT_MAJOR >= 6 )") env;
    define "TRT_LEGACY_ENQUEUE" (object_like "( NV_TENSORRT_MAJOR < 8 )") env
  end.

(** The directives of [Int8Calibrator.h]: the include guard
    [_ENTROY_CALIBRATOR_H] and its own [TRT_NOEXCEPT].  The headers it
    includes are not followed. *)
Definition Int8Calibrator_h (v : TrtVersion) (env : gmap string macro)
  : option (gmap string macro) :=
  match env !! "_ENTROY_CALIBRATOR_H"%string with
  | Some _ => Some env
  | None =>
    let env := <["_ENTROY_CALIBRATOR_H"%string := object_like ""]> env in
    define "TRT_NOEXCEPT"
      (object_like (specifier_tokens (CalibratorDeclaration.TRT_NOEXCEPT v))) env
  end.

(** Every name the two headers define, include guards first. *)
Definition header_names : list string :=
  "TRT_VERSION_COMPAT_H"%string :: "_ENTROY_CALIBRATOR_H"%string :: compat_names.

(** A translation unit in which a plugin header has already defined
    [IS_NOEXCEPT] as [noexcept], and one in which [TRT_NOEXCEPT] was defined
    as [noexcept] by hand. *)
Definition with_IS_NOEXCEPT : gmap string macro :=
  {[ "IS_NOEXCEPT"%string := object_like "noexcept" ]}.


End Preprocessor.

(* ===================================================================== *)
(** ** Properties of the version macros                                  *)
(* ===================================================================== *)

Module VersionFacts.
Import VersionCompat.

(** Turns the boolean comparisons of a macro into linear arithmetic. *)
Ltac macro_arith :=
  rewrite ?orb_true_iff, ?andb_true_iff, ?negb_true_iff, ?orb_false_iff,
    ?andb_false_iff, ?Z.gtb_ltb, ?Z.geb_leb, ?Z.ltb_lt, ?Z.leb_le, ?Z.eqb_eq,
    ?Z.ltb_ge, ?Z.leb_gt, ?Z.eqb_neq.

Lemma lex_ge_unfold (x1 x2 x3 y1 y2 y3 : Z) :
  lex_ge (x1, x2, x3) (y1, y2, y3) <->
  x1 > y1 \/ (x1 = y1 /\ x2 > y2) \/ (x1 = y1 /\ x2 = y2 /\ x3 >= y3).
Proof.
  unfold lex_ge, lex_compare.
  destruct (Z.compare_spec x1 y1) as [E1 | L1 | G1];
    [destruct (Z.compare_spec x2 y2) as [E2 | L2 | G2];
       [destruct (Z.compare_spec x3 y3) as [E3 | L3 | G3] | | ] | | ];
    split; intros H; try congruence; try lia.
Qed.

(** C9. For the linked version (M, m, p) and every triplet (a, b, c),
    [TRT_VERSION_GE(a, b, c)] holds exactly when (M, m, p) is greater than or
    equal to (a, b, c) in the lexicographic order on (major, minor, patch),
    and [TRT_VERSION_LT(a, b, c)] is its boolean negation (so it holds exactly
    when (M, m, p) is lexicographically below (a, b, c)). *)
Theorem TRT_VERSION_GE_is_lexicographic (v : TrtVersion) (a b c : Z) :
  (TRT_VERSION_GE v a b c = true <-> lex_ge (triplet v) (a, b, c))
  /\ TRT_VERSION_LT v a b c = negb (TRT_VERSION_GE v a b c)
  /\ (TRT_VERSION_LT v a b c = true <-> lex_compare (triplet v) (a, b, c) = Lt).
Proof.
  destruct v as [M m p].
  assert (GE : TRT_VERSION_GE (mkVersion M m p) a b c = true
               <-> lex_ge (M, m, p) (a, b, c)).
  { rewrite lex_ge_unfold. unfold TRT_VERSION_GE. cbn.
    macro_arith. lia. }
  split; [exact GE | split; [reflexivity | ]].
  unfold TRT_VERSION_LT. rewrite negb_true_iff, <- not_true_iff_false, GE.
  unfold lex_ge, triplet. cbn [NV_TENSORRT_MAJOR NV_TENSORRT_MINOR NV_TENSORRT_PATCH].
  destruct (lex_compare (M, m, p) (a, b, c)); split; intros H;
    try congruence; exfalso; apply H; congruence.
Qed.

(** C10. For every version triplet the three switches of the major-version-8
    boundary agree: [TRT_LEGACY_DESTROY] (ownership model ExplicitDestroy),
    [TRT_LEGACY_ENQUEUE] (the legacy enqueue signature) and an empty
    [TRT_NOEXCEPT] each hold exactly when the major version is below 8, so the
    resolved descriptor never pairs a legacy value of one of these fields with
    a modern value of another. *)
Theorem major_8_switches_agree (v : TrtVersion) :
  (TRT_LEGACY_DESTROY v = true <-> NV_TENSORRT_MAJOR v < 8)
  /\ (TRT_LEGACY_ENQUEUE v = true <-> NV_TENSORRT_MAJOR v < 8)
  /\ (TRT_NOEXCEPT v = EmptySpecifier <-> NV_TENSORRT_MAJOR v < 8)
  /\ (ownership (descriptor_of v) = ExplicitDestroy
      <-> enqueue_signature (descriptor_of v) = LegacyEnqueue)
  /\ (ownership (descriptor_of v) = ExplicitDestroy
      <-> TRT_NOEXCEPT v = EmptySpecifier)
  /\ (ownership (descriptor_of v) = AutomaticRelease
      <-> enqueue_signature (descriptor_of v) = NoexceptEnqueue)
  /\ (ownership (descriptor_of v) = AutomaticRelease
      <-> IS_NOEXCEPT v = Noexcept).
Proof.
  destruct v as [M m p].
  unfold descriptor_of, IS_NOEXCEPT, TRT_NOEXCEPT, TRT_LEGACY_DESTROY,
    TRT_LEGACY_ENQUEUE; cbn.
  rewrite Z.geb_leb.
  destruct (Z.ltb_spec M 8), (Z.leb_spec 8 M); try lia;
    repeat split; intros; try congruence; try lia.
Qed.

End VersionFacts.

(* ===================================================================== *)
(** ** Capability resolution and the wrapper                             *)
(* ===================================================================== *)

Module TrtFacts.
Import VersionCompat Trt.

(** C8, as stated, fails below the floor.  For major version 6 the header
    raises nothing: every macro is defined and resolution returns the
    all-legacy descriptor. *)
Lemma resolve_below_floor_is_not_rejected :
  NV_TENSORRT_MAJOR trt_6_0_0 < 7
  /\ resolve trt_6_0_0
     = Resolved (mkDescriptor ExplicitDestroy LegacyEnqueue LegacySetter BuildThenSerialize)
  /\ ~ (forall v, NV_TENSORRT_MAJOR v < 7 <-> resolve v = UnsupportedVersion).
Proof.
  split; [reflexivity | split; [reflexivity | ]].
  intros H. specialize (H trt_6_0_0). destruct H as [H _].
  discriminate H. reflexivity.
Qed.

(** C8, amended. Capability resolution is a total function of the version
    triplet with no error path at all: for every triplet, also one whose
    major version is below 7, it returns a descriptor and never the
    unsupported-version signal.  The descriptor is legacy in ownership,
    enqueue signature and build mode exactly for major < 8, and uses the
    legacy workspace setter exactly for (major, minor) below (8, 4). *)
Theorem resolve_never_fails (v : TrtVersion) :
  resolve v <> UnsupportedVersion
  /\ (exists d, resolve v = Resolved d
      /\ (ownership d = ExplicitDestroy <-> NV_TENSORRT_MAJOR v < 8)
      /\ (enqueue_signature d = LegacyEnqueue <-> NV_TENSORRT_MAJOR v < 8)
      /\ (build_sequence d = BuildThenSerialize <-> NV_TENSORRT_MAJOR v < 8)
      /\ (workspace_mechanism d = LegacySetter
          <-> NV_TENSORRT_MAJOR v < 8
              \/ (NV_TENSORRT_MAJOR v = 8 /\ NV_TENSORRT_MINOR v < 4)))
  /\ resolve v = resolve (mkVersion (NV_TENSORRT_MAJOR v) (NV_TENSORRT_MINOR v)
                                    (NV_TENSORRT_PATCH v)).
Proof.
  destruct v as [M m p].
  split; [discriminate | split; [ | reflexivity]].
  eexists; split; [reflexivity | ].
  unfold descriptor_of, TRT_LEGACY_DESTROY, TRT_LEGACY_ENQUEUE,
    TRT_HAS_WORKSPACE_SIZE_API; cbn.
  destruct (Z.ltb_spec M 8), (Z.eqb_spec M 8), (Z.ltb_spec m 4); cbn;
    repeat split; intros; try congruence; try lia.
Qed.

(** C5, as stated, fails on TensorRT 8.4.0: the descriptor's mechanism is the
    pool-limit API, but the wrapper has no member function left to apply a
    workspace limit with, and performs no configuration call. *)
Lemma no_pool_limit_call_on_8_4 :
  workspace_mechanism (descriptor_of trt_8_4_0) = PoolLimitAPI
  /\ workspace_calls trt_8_4_0 one_gib = []
  /\ workspace_calls trt_8_4_0 one_gib
     <> [mechanism_call (workspace_mechanism (descriptor_of trt_8_4_0)) one_gib]
  /\ ~ (forall v w,
          workspace_calls v w = [mechanism_call (workspace_mechanism (descriptor_of v)) w]).
Proof.
  split; [reflexivity | split; [reflexivity | split]].
  - discriminate.
  - intros H. specialize (H trt_8_4_0 one_gib). discriminate H.
Qed.

(** C5, amended. The mechanism of the descriptor is the legacy setter exactly
    when (major, minor) is below (8, 4).  Whenever it is, the wrapper applies
    the workspace limit by exactly one call, [setMaxWorkspaceSize] with the
    requested value.  Whenever major >= 8 and minor >= 4 the wrapper applies
    nothing; and on no version does it call [setMemoryPoolLimit]. *)
Theorem workspace_is_applied_by_the_legacy_setter_only (v : TrtVersion) (w : Z) :
  (workspace_mechanism (descriptor_of v) = LegacySetter
   <-> NV_TENSORRT_MAJOR v < 8 \/ (NV_TENSORRT_MAJOR v = 8 /\ NV_TENSORRT_MINOR v < 4))
  /\ (workspace_mechanism (descriptor_of v) = LegacySetter ->
      workspace_calls v w = [setMaxWorkspaceSize w])
  /\ (8 <= NV_TENSORRT_MAJOR v /\ 4 <= NV_TENSORRT_MINOR v ->
      workspace_calls v w = [])
  /\ (forall pool poolSize, setMemoryPoolLimit pool poolSize ∉ workspace_calls v w).
Proof.
  destruct v as [M m p].
  unfold descriptor_of, workspace_calls, SetWorkpaceSize, SetWorkpaceSize_compiled,
    TRT_HAS_WORKSPACE_SIZE_API; cbn.
  rewrite !Z.geb_leb.
  destruct (Z.ltb_spec M 8), (Z.eqb_spec M 8), (Z.ltb_spec m 4),
    (Z.leb_spec 8 M), (Z.leb_spec 4 m); cbn; try lia;
    (split; [split; intros; try congruence; lia | ]);
    (split; [intros; try congruence; try lia | ]);
    (split; [intros; try congruence; try lia | ]);
    intros pool poolSize Hin;
    repeat match goal with
           | H : _ ∈ [] |- _ => inversion H
           | H : _ ∈ _ :: _ |- _ => inversion H; subst; clear H
           end.
Qed.

(** The theorem above at TensorRT 8.0.0 and at 8.4.0. *)
Lemma workspace_is_applied_by_the_legacy_setter_only_witness :
  workspace_calls trt_8_0_0 one_gib = [setMaxWorkspaceSize one_gib]
  /\ workspace_calls trt_8_4_0 one_gib = [].
Proof.
  split.
  - apply (workspace_is_applied_by_the_legacy_setter_only trt_8_0_0 one_gib).
    reflexivity.
  - apply (workspace_is_applied_by_the_legacy_setter_only trt_8_4_0 one_gib).
    cbn. lia.
Defined.

(** Where the guard of [SetWorkpaceSize] and [TRT_HAS_WORKSPACE_SIZE_API]
    part: on TensorRT 10.0.0 the header says the legacy API is gone, while the
    guard still compiles the member function that calls it. *)
Example guard_and_macro_differ_on_10_0 :
  TRT_HAS_WORKSPACE_SIZE_API trt_10_0_0 = false
  /\ SetWorkpaceSize_compiled trt_10_0_0 = true.
Proof. split; reflexivity. Qed.

End TrtFacts.

(* ===================================================================== *)
(** ** The batch cursor of the calibrator                                *)
(* ===================================================================== *)

Module PipelineFacts.
Import Int8Calibrator.

















End PipelineFacts.

(* ===================================================================== *)
(** ** The calibration cache                                             *)
(* ===================================================================== *)

Module CacheFacts.
Import Int8Calibrator.

Section WithFingerprint.
Context {Fingerprint : Type} `{EqDecision Fingerprint}.
Implicit Types (fp stored : Fingerprint) (store : gmap string (cache_file Fingerprint)).

(** C2. For every fingerprint and every byte sequence, [load] after [save]
    gives back exactly the bytes saved, whatever the store held before; the
    same holds for [readCalibrationCache] after [writeCalibrationCache] on
    one calibrator. *)
Theorem load_after_save fp (bytes : list Byte.byte) (path : string) store :
  load fp path (save fp bytes path store) = Some bytes
  /\ forall (hash : string -> Z -> list string -> Fingerprint) self,
       readCalibrationCache hash self (writeCalibrationCache hash self bytes store)
       = Some bytes.
Proof.
  assert (Hround : forall fp' path',
            load fp' path' (save fp' bytes path' store) = Some bytes).
  { intros fp' path'. unfold load, save. rewrite lookup_insert_eq.
    destruct (decide (fp' = fp')) as [_ | Hne]; [reflexivity | contradiction]. }
  split; [apply Hround | ].
  intros hash self. unfold readCalibrationCache, writeCalibrationCache.
  apply Hround.
Qed.

(** C3. [load] is a miss (none) whenever the store has no file at the
    path, the file is unreadable, or the fingerprint stored with the blob
    differs from the requested one; a mismatched blob is never returned,
    since a hit only returns the blob stored under the requested
    fingerprint.  [load] has no other outcome than a hit or a miss. *)
Theorem load_misses_on_absent_unreadable_or_mismatch fp (path : string) store :
  (store !! path = None
   \/ store !! path = Some Unreadable
   \/ exists stored blob, store !! path = Some (Entry stored blob) /\ stored <> fp) ->
  load fp path store = None
  /\ forall blob, load fp path store <> Some blob.
Proof.
  intros Hcase.
  assert (Hmiss : load fp path store = None).
  { unfold load. destruct Hcase as [-> | [-> | (stored & blob & -> & Hne)]];
      [reflexivity | reflexivity | ].
    destruct (decide (stored = fp)); [contradiction | reflexivity]. }
  split; [exact Hmiss | ]. intros blob. rewrite Hmiss. discriminate.
Qed.

(** A hit comes from an entry stored under the requested fingerprint. *)
Lemma load_hit_inv fp (path : string) store (blob : list Byte.byte) :
  load fp path store = Some blob -> store !! path = Some (Entry fp blob).
Proof.
  unfold load. destruct (store !! path) as [[ | stored b] | ]; try discriminate.
  destruct (decide (stored = fp)) as [-> | ]; [ | discriminate].
  intros [= ->]. reflexivity.
Qed.
End WithFingerprint.

(** The miss theorem on the three kinds of store: an entry produced for
    fingerprint 1 and asked for fingerprint 2, an unreadable file, no file. *)
Lemma load_misses_on_absent_unreadable_or_mismatch_witness :
  load 2 "calibration.cache" stale_store = None
  /\ load 2 "calibration.cache" unreadable_store = None
  /\ load 2 "calibration.cache" (∅ : gmap string (cache_file Z)) = None.
Proof.
  split; [ | split].
  - apply (load_misses_on_absent_unreadable_or_mismatch (Fingerprint := Z)).
    right. right. exists 1, [Byte.x2a]. split; [reflexivity | lia].
  - apply (load_misses_on_absent_unreadable_or_mismatch (Fingerprint := Z)).
    right. left. reflexivity.
  - apply (load_misses_on_absent_unreadable_or_mismatch (Fingerprint := Z)).
    left. reflexivity.
Defined.

End CacheFacts.

(* ===================================================================== *)
(** ** The interface query                                               *)
(* ===================================================================== *)

Module BuildFacts.
Import VersionCompat Trt Int8Calibrator.

(** C7. The interface-identity query exists on the newest generation of the
    native contract (major version 10 and later) and only there.  Where it
    exists it answers with one fixed (name, version) pair: the same for every
    state of the calibrator, hence the same on every call, whatever calls of
    [getBatch] came in between. *)
Theorem getInterfaceInfo_is_constant (name : string) (version : Z)
    (v : TrtVersion) (self : TrtInt8Calibrator) :
  (is_Some (getInterfaceInfo name version v self) <-> 10 <= NV_TENSORRT_MAJOR v)
  /\ (10 <= NV_TENSORRT_MAJOR v ->
      forall other : TrtInt8Calibrator,
        getInterfaceInfo name version v other = Some (mkInterfaceInfo name version))
  /\ (forall (other : TrtInt8Calibrator) (k : nat),
        getInterfaceInfo name version v (after_calls k other)
        = getInterfaceInfo name version v self).
Proof.
  unfold getInterfaceInfo. rewrite Z.geb_leb.
  destruct (Z.leb_spec 10 (NV_TENSORRT_MAJOR v)) as [Hnew | Hold].
  - split; [split; [intros _; exact Hnew | intros _; eexists; reflexivity] | ].
    split; [intros _ other; reflexivity | intros other k; reflexivity].
  - split; [split; [intros [x Hx]; discriminate Hx | intros; lia] | ].
    split; [intros; lia | intros other k; reflexivity].
Qed.

(** The theorem above on TensorRT 10.0.0. *)
Lemma getInterfaceInfo_is_constant_witness :
  getInterfaceInfo "TrtInt8Calibrator" 1 trt_10_0_0 calibrator_10_4
  = Some (mkInterfaceInfo "TrtInt8Calibrator" 1).
Proof.
  apply (getInterfaceInfo_is_constant "TrtInt8Calibrator" 1 trt_10_0_0 calibrator_10_4).
  cbn. lia.
Defined.

End BuildFacts.

(* ===================================================================== *)
(** ** The order of releases and the feature macros                      *)
(* ===================================================================== *)

Module VersionOrderFacts.
Import VersionCompat VersionOrder Trt.
Import VersionFacts.

Lemma at_least_iff (v w : TrtVersion) :
  at_least v w = true <->
  NV_TENSORRT_MAJOR v > NV_TENSORRT_MAJOR w
  \/ (NV_TENSORRT_MAJOR v = NV_TENSORRT_MAJOR w
      /\ NV_TENSORRT_MINOR v > NV_TENSORRT_MINOR w)
  \/ (NV_TENSORRT_MAJOR v = NV_TENSORRT_MAJOR w
      /\ NV_TENSORRT_MINOR v = NV_TENSORRT_MINOR w
      /\ NV_TENSORRT_PATCH v >= NV_TENSORRT_PATCH w).
Proof. unfold at_least, TRT_VERSION_GE. macro_arith. lia. Qed.

(** X1. With non-negative minor and patch numbers, every feature macro of
    the header is one of the two helper macros at a fixed release:
    [TRT_LEGACY_DESTROY] and [TRT_LEGACY_ENQUEUE] are [TRT_VERSION_LT(8,0,0)],
    [TRT_HAS_WORKSPACE_SIZE_API] is [TRT_VERSION_LT(8,4,0)],
    [TRT_HAS_DLA_SUPPORT] is [TRT_VERSION_GE(8,0,0)],
    [TRT_HAS_DYNAMIC_SHAPES] is [TRT_VERSION_GE(6,0,0)], and [TRT_NOEXCEPT] is
    [noexcept] exactly under [TRT_VERSION_GE(8,0,0)]. *)
Theorem feature_macros_are_version_tests (v : TrtVersion) :
  0 <= NV_TENSORRT_MINOR v -> 0 <= NV_TENSORRT_PATCH v ->
  TRT_LEGACY_DESTROY v = TRT_VERSION_LT v 8 0 0
  /\ TRT_LEGACY_ENQUEUE v = TRT_VERSION_LT v 8 0 0
  /\ TRT_HAS_WORKSPACE_SIZE_API v = TRT_VERSION_LT v 8 4 0
  /\ TRT_HAS_DLA_SUPPORT v = TRT_VERSION_GE v 8 0 0
  /\ TRT_HAS_DYNAMIC_SHAPES v = TRT_VERSION_GE v 6 0 0
  /\ (TRT_NOEXCEPT v = Noexcept <-> TRT_VERSION_GE v 8 0 0 = true).
Proof.
  destruct v as [M m p]. cbn [NV_TENSORRT_MINOR NV_TENSORRT_PATCH]. intros Hm Hp.
  assert (GE : forall a b, 0 <= b ->
            TRT_VERSION_GE (mkVersion M m p) a b 0 = true <-> M > a \/ (M = a /\ m >= b)).
  { intros a b Hb. unfold TRT_VERSION_GE. cbn. macro_arith. lia. }
  assert (LT : forall a b, 0 <= b ->
            TRT_VERSION_LT (mkVersion M m p) a b 0 = true <-> M < a \/ (M = a /\ m < b)).
  { intros a b Hb. unfold TRT_VERSION_LT.
    rewrite negb_true_iff, <- not_true_iff_false, GE by assumption. lia. }
  repeat split.
  - apply eq_true_iff_eq. rewrite LT by lia.
    unfold TRT_LEGACY_DESTROY; cbn. macro_arith. lia.
  - apply eq_true_iff_eq. rewrite LT by lia.
    unfold TRT_LEGACY_ENQUEUE; cbn. macro_arith. lia.
  - apply eq_true_iff_eq. rewrite LT by lia.
    unfold TRT_HAS_WORKSPACE_SIZE_API; cbn. macro_arith. lia.
  - apply eq_true_iff_eq. rewrite GE by lia.
    unfold TRT_HAS_DLA_SUPPORT; cbn. macro_arith. lia.
  - apply eq_true_iff_eq. rewrite GE by lia.
    unfold TRT_HAS_DYNAMIC_SHAPES; cbn. macro_arith. lia.
  - rewrite GE by lia. unfold TRT_NOEXCEPT; cbn. rewrite Z.geb_leb.
    destruct (Z.leb_spec 8 M); [intros _; lia | discriminate].
  - rewrite GE by lia. unfold TRT_NOEXCEPT; cbn. rewrite Z.geb_leb.
    destruct (Z.leb_spec 8 M); [reflexivity | lia].
Qed.

(** The theorem above on TensorRT 8.3.1. *)
Lemma feature_macros_are_version_tests_witness :
  TRT_HAS_WORKSPACE_SIZE_API trt_8_3_1 = TRT_VERSION_LT trt_8_3_1 8 4 0
  /\ TRT_HAS_DLA_SUPPORT trt_8_3_1 = TRT_VERSION_GE trt_8_3_1 8 0 0.
Proof.
  destruct (feature_macros_are_version_tests trt_8_3_1) as (_ & _ & Hw & Hd & _).
  - cbn. lia.
  - cbn. lia.
  - split; [exact Hw | exact Hd].
Defined.

(** X2. [TRT_VERSION_GE], used to compare two releases, is a total order on
    version triplets: reflexive, transitive, antisymmetric and total; and
    [TRT_VERSION_LT] is the strict order that goes with it. *)
Theorem at_least_is_a_total_order :
  (forall v, at_least v v = true)
  /\ (forall u v w, at_least u v = true -> at_least v w = true -> at_least u w = true)
  /\ (forall v w, at_least v w = true -> at_least w v = true -> v = w)
  /\ (forall v w, at_least v w = true \/ at_least w v = true)
  /\ (forall v w,
        TRT_VERSION_LT v (NV_TENSORRT_MAJOR w) (NV_TENSORRT_MINOR w) (NV_TENSORRT_PATCH w)
        = true
        <-> at_least w v = true /\ v <> w).
Proof.
  assert (Hanti : forall v w, at_least v w = true -> at_least w v = true -> v = w).
  { intros [M m p] [M' m' p']. rewrite !at_least_iff. cbn. intros H1 H2.
    f_equal; lia. }
  split; [intros v; apply at_least_iff; lia | ].
  split; [intros u v w; rewrite !at_least_iff; lia | ].
  split; [exact Hanti | ].
  split; [intros v w; rewrite !at_least_iff; lia | ].
  intros v w. unfold TRT_VERSION_LT. fold (at_least v w).
  rewrite negb_true_iff, <- not_true_iff_false. split.
  - intros Hnot. split.
    + revert Hnot. rewrite !at_least_iff. lia.
    + intros ->. apply Hnot. apply at_least_iff. lia.
  - intros [Hge Hne] Hle. apply Hne. apply Hanti; assumption.
Qed.

(** The theorem above on the releases 7.2.3, 8.3.1 and 8.6.1. *)
Lemma at_least_is_a_total_order_witness :
  at_least trt_8_6_1 trt_7_2_3 = true.
Proof.
  destruct at_least_is_a_total_order as (_ & Htrans & _).
  apply (Htrans trt_8_6_1 trt_8_3_1 trt_7_2_3); reflexivity.
Defined.

End VersionOrderFacts.

(* ===================================================================== *)
(** ** How the capabilities move along the releases                      *)
(* ===================================================================== *)

Module CapabilityFacts.
Import VersionCompat VersionOrder Trt.
Import VersionFacts.

Lemma at_least_major_minor (v w : TrtVersion) :
  at_least v w = true ->
  NV_TENSORRT_MAJOR w < NV_TENSORRT_MAJOR v
  \/ (NV_TENSORRT_MAJOR w = NV_TENSORRT_MAJOR v
      /\ NV_TENSORRT_MINOR w <= NV_TENSORRT_MINOR v).
Proof. unfold at_least, TRT_VERSION_GE. macro_arith. lia. Qed.

(** X3. The feature macros of the header are monotone along the order of
    releases.  When release [newer] is at least release [older]: a legacy
    flag ([TRT_LEGACY_DESTROY], [TRT_LEGACY_ENQUEUE],
    [TRT_HAS_WORKSPACE_SIZE_API]) that holds for [newer] holds for [older],
    and a support flag ([TRT_HAS_DLA_SUPPORT], [TRT_HAS_DYNAMIC_SHAPES], a
    [noexcept] expansion of [TRT_NOEXCEPT]) that holds for [older] holds for
    [newer]. *)
Theorem feature_macros_are_monotone (older newer : TrtVersion) :
  at_least newer older = true ->
  (TRT_LEGACY_DESTROY newer = true -> TRT_LEGACY_DESTROY older = true)
  /\ (TRT_LEGACY_ENQUEUE newer = true -> TRT_LEGACY_ENQUEUE older = true)
  /\ (TRT_HAS_WORKSPACE_SIZE_API newer = true -> TRT_HAS_WORKSPACE_SIZE_API older = true)
  /\ (TRT_HAS_DLA_SUPPORT older = true -> TRT_HAS_DLA_SUPPORT newer = true)
  /\ (TRT_HAS_DYNAMIC_SHAPES older = true -> TRT_HAS_DYNAMIC_SHAPES newer = true)
  /\ (TRT_NOEXCEPT older = Noexcept -> TRT_NOEXCEPT newer = Noexcept).
Proof.
  intros Hge. apply at_least_major_minor in Hge.
  destruct older as [M m p], newer as [M' m' p']. cbn in Hge.
  unfold TRT_LEGACY_DESTROY, TRT_LEGACY_ENQUEUE, TRT_HAS_WORKSPACE_SIZE_API,
    TRT_HAS_DLA_SUPPORT, TRT_HAS_DYNAMIC_SHAPES, TRT_NOEXCEPT; cbn.
  repeat split; macro_arith; try lia.
  rewrite ?Z.geb_leb.
  destruct (Z.leb_spec 8 M), (Z.leb_spec 8 M'); try lia; congruence.
Qed.

(** The theorem above on TensorRT 8.6.1 against 8.3.1. *)
Lemma feature_macros_are_monotone_witness :
  TRT_HAS_DLA_SUPPORT trt_8_6_1 = true.
Proof.
  destruct (feature_macros_are_monotone trt_8_3_1 trt_8_6_1) as (_ & _ & _ & Hdla & _).
  - reflexivity.
  - apply Hdla. reflexivity.
Defined.

(** X4. The guard of [Trt::SetWorkpaceSize] and the header's
    [TRT_HAS_WORKSPACE_SIZE_API] give the same answer except on the releases
    with major >= 9 and minor < 4; there the header says the legacy workspace
    API is gone while the guard keeps the member function, which then calls
    [setMaxWorkspaceSize].  The macro implies the guard on every release, the
    member function is missing exactly for major >= 8 with minor >= 4, and,
    unlike the macro, the guard is not monotone along the releases. *)
Theorem SetWorkpaceSize_guard_versus_macro (v : TrtVersion) (w : Z) :
  (TRT_HAS_WORKSPACE_SIZE_API v = true -> SetWorkpaceSize_compiled v = true)
  /\ (SetWorkpaceSize_compiled v <> TRT_HAS_WORKSPACE_SIZE_API v
      <-> 9 <= NV_TENSORRT_MAJOR v /\ NV_TENSORRT_MINOR v < 4)
  /\ (9 <= NV_TENSORRT_MAJOR v /\ NV_TENSORRT_MINOR v < 4 ->
      workspace_mechanism (descriptor_of v) = PoolLimitAPI
      /\ SetWorkpaceSize v w = Some [setMaxWorkspaceSize w])
  /\ (SetWorkpaceSize v w = None
      <-> 8 <= NV_TENSORRT_MAJOR v /\ 4 <= NV_TENSORRT_MINOR v)
  /\ (exists older newer,
        at_least newer older = true
        /\ SetWorkpaceSize_compiled newer = true
        /\ SetWorkpaceSize_compiled older = false).
Proof.
  destruct v as [M m p].
  unfold descriptor_of, SetWorkpaceSize, SetWorkpaceSize_compiled,
    TRT_HAS_WORKSPACE_SIZE_API; cbn.
  rewrite !Z.geb_leb.
  split; [ | split; [ | split; [ | split]]].
  - macro_arith. lia.
  - destruct (Z.ltb_spec M 8), (Z.eqb_spec M 8), (Z.ltb_spec m 4),
      (Z.leb_spec 8 M), (Z.leb_spec 4 m); cbn; try lia;
      split; intros; try congruence; lia.
  - intros [HM Hm].
    destruct (Z.ltb_spec M 8), (Z.eqb_spec M 8), (Z.ltb_spec m 4),
      (Z.leb_spec 8 M), (Z.leb_spec 4 m); cbn; try lia. split; reflexivity.
  - destruct (Z.leb_spec 8 M), (Z.leb_spec 4 m); cbn;
      split; intros; try congruence; lia.
  - exists trt_8_4_0, trt_9_0_0. repeat split.
Qed.

(** The theorem above on TensorRT 10.0.0. *)
Lemma SetWorkpaceSize_guard_versus_macro_witness :
  workspace_mechanism (descriptor_of trt_10_0_0) = PoolLimitAPI
  /\ SetWorkpaceSize trt_10_0_0 one_gib = Some [setMaxWorkspaceSize one_gib].
Proof.
  apply (SetWorkpaceSize_guard_versus_macro trt_10_0_0 one_gib).
  cbn. lia.
Defined.

(** X5. Of the sixteen descriptors only three are ever resolved: the legacy
    one exactly for major < 8, the transitional one (automatic release and
    direct build, but still the legacy workspace setter) exactly for major 8
    with minor < 4, and the modern one on every other release.  So explicit
    destruction never meets the pool-limit API, nor the build-then-serialize
    sequence automatic release. *)
Theorem only_three_descriptors (v : TrtVersion) :
  (descriptor_of v = legacy_descriptor <-> NV_TENSORRT_MAJOR v < 8)
  /\ (descriptor_of v = transitional_descriptor
      <-> NV_TENSORRT_MAJOR v = 8 /\ NV_TENSORRT_MINOR v < 4)
  /\ (descriptor_of v = modern_descriptor
      <-> 9 <= NV_TENSORRT_MAJOR v
          \/ (NV_TENSORRT_MAJOR v = 8 /\ 4 <= NV_TENSORRT_MINOR v))
  /\ descriptor_of v ∈ [legacy_descriptor; transitional_descriptor; modern_descriptor].
Proof.
  destruct v as [M m p].
  unfold descriptor_of, TRT_LEGACY_DESTROY, TRT_LEGACY_ENQUEUE,
    TRT_HAS_WORKSPACE_SIZE_API, legacy_descriptor, transitional_descriptor,
    modern_descriptor; cbn.
  destruct (Z.ltb_spec M 8), (Z.eqb_spec M 8), (Z.ltb_spec m 4); cbn; try lia;
    (split; [split; intros; try congruence; try lia | ]);
    (split; [split; intros; try congruence; try lia | ]);
    (split; [split; intros; try congruence; try lia | ]);
    rewrite !elem_of_cons; auto.
Qed.

End CapabilityFacts.

(* ===================================================================== *)
(** ** Guards written in place, and the class declaration                *)
(* ===================================================================== *)

Module DeclarationFacts.
Import VersionCompat InlineGuards Int8Calibrator.
Import VersionFacts.

(** X6. The guards written in place agree with the macros of the header on
    every release: [TrtDestroyer] calls [destroy()] exactly under
    [TRT_LEGACY_DESTROY], the plugin's [enqueue] takes [void **outputs]
    exactly under [TRT_LEGACY_ENQUEUE], the specifier written on [enqueue] is
    what [TRT_NOEXCEPT] expands to, and the [TRT_NOEXCEPT] of
    [Int8Calibrator.h] is that of [trt_version_compat.h]. *)
Theorem inline_guards_agree_with_macros (v : TrtVersion) :
  (TrtDestroyer v = CallDestroy <-> TRT_LEGACY_DESTROY v = true)
  /\ (TrtDestroyer v = CallDestroy <-> ownership (descriptor_of v) = ExplicitDestroy)
  /\ (enqueue_outputs (plugin_enqueue v) = VoidPtrPtr <-> TRT_LEGACY_ENQUEUE v = true)
  /\ enqueue_specifier (plugin_enqueue v) = VersionCompat.TRT_NOEXCEPT v
  /\ CalibratorDeclaration.TRT_NOEXCEPT v = VersionCompat.TRT_NOEXCEPT v.
Proof.
  destruct v as [M m p].
  unfold TrtDestroyer, plugin_enqueue, descriptor_of,
    CalibratorDeclaration.TRT_NOEXCEPT, VersionCompat.TRT_NOEXCEPT,
    TRT_LEGACY_DESTROY, TRT_LEGACY_ENQUEUE; cbn.
  rewrite !Z.geb_leb.
  destruct (Z.ltb_spec M 8), (Z.leb_spec 8 M);
    try lia; cbn; repeat split; intros; congruence.
Qed.

(** X12. The three code paths of the guide against the capabilities: the
    TRT 7 path is taken exactly on the releases that resolve to the legacy
    descriptor, and the TRT 10 path only on releases that resolve to the
    modern one and exactly where [getInterfaceInfo] is declared.  The path
    for TRT 8 and 9 is coarser than the capabilities: it holds releases with
    the legacy workspace setter and releases with the pool-limit API. *)
Theorem version_pattern_and_capabilities (v : TrtVersion) :
  (version_pattern v = Trt7Code <-> descriptor_of v = VersionOrder.legacy_descriptor)
  /\ (version_pattern v = Trt10Code ->
      descriptor_of v = VersionOrder.modern_descriptor)
  /\ (version_pattern v = Trt10Code
      <-> "getInterfaceInfo"%string
            ∈ CalibratorDeclaration.override_name <$> CalibratorDeclaration.overrides v)
  /\ (exists u w,
        version_pattern u = Trt8And9Code /\ version_pattern w = Trt8And9Code
        /\ workspace_mechanism (descriptor_of u) = LegacySetter
        /\ workspace_mechanism (descriptor_of w) = PoolLimitAPI).
Proof.
  split; [ | split; [ | split]].
  - destruct v as [M m p].
    unfold version_pattern, descriptor_of, VersionOrder.legacy_descriptor,
      TRT_LEGACY_DESTROY, TRT_LEGACY_ENQUEUE, TRT_HAS_WORKSPACE_SIZE_API; cbn.
    rewrite !Z.geb_leb.
    destruct (Z.ltb_spec M 8), (Z.leb_spec 8 M), (Z.leb_spec 10 M); try lia; cbn;
      split; intros; congruence.
  - destruct v as [M m p].
    unfold version_pattern, descriptor_of, VersionOrder.modern_descriptor,
      TRT_LEGACY_DESTROY, TRT_LEGACY_ENQUEUE, TRT_HAS_WORKSPACE_SIZE_API; cbn.
    rewrite !Z.geb_leb.
    destruct (Z.ltb_spec M 8), (Z.leb_spec 8 M), (Z.leb_spec 10 M), (Z.eqb_spec M 8);
      try lia; cbn; intros; congruence.
  - unfold version_pattern, CalibratorDeclaration.overrides.
    destruct (NV_TENSORRT_MAJOR v >=? 10); cbn.
    + split; [intros _ | reflexivity]. rewrite !elem_of_cons. auto 10.
    + split.
      * destruct (NV_TENSORRT_MAJOR v >=? 8); discriminate.
      * rewrite !elem_of_cons, elem_of_nil. intros H'.
        repeat (destruct H' as [H' | H']; [discriminate H' | ]). contradiction.
  - exists VersionOrder.trt_8_3_1, VersionOrder.trt_8_6_1. repeat split.
Qed.

Lemma elem_of_overrides (v : TrtVersion) (d : CalibratorDeclaration.override_declaration) :
  d ∈ CalibratorDeclaration.overrides v ->
  CalibratorDeclaration.override_specifier d = CalibratorDeclaration.TRT_NOEXCEPT v.
Proof.
  unfold CalibratorDeclaration.overrides.
  destruct (NV_TENSORRT_MAJOR v >=? 10); cbn [app];
    rewrite ?elem_of_cons, elem_of_nil; intros H;
    repeat (destruct H as [-> | H]; [reflexivity | ]); contradiction.
Qed.

(** X7. The class overrides five member functions on every release and a
    sixth, [getInterfaceInfo], exactly for major >= 10, under distinct names.
    Every override carries the header's [TRT_NOEXCEPT]; so from major 8 on
    all of them are [noexcept], and where [getInterfaceInfo] is declared no
    override of the class is left without [noexcept].  The query itself can
    be answered exactly where it is declared. *)
Theorem calibrator_overrides (v : TrtVersion) :
  (forall d, d ∈ CalibratorDeclaration.overrides v ->
     CalibratorDeclaration.override_specifier d = VersionCompat.TRT_NOEXCEPT v)
  /\ ("getInterfaceInfo"%string
        ∈ CalibratorDeclaration.override_name <$> CalibratorDeclaration.overrides v
      <-> 10 <= NV_TENSORRT_MAJOR v)
  /\ length (CalibratorDeclaration.overrides v)
     = (if NV_TENSORRT_MAJOR v >=? 10 then 6 else 5)%nat
  /\ NoDup (CalibratorDeclaration.override_name <$> CalibratorDeclaration.overrides v)
  /\ ("getInterfaceInfo"%string
        ∈ CalibratorDeclaration.override_name <$> CalibratorDeclaration.overrides v ->
      forall d, d ∈ CalibratorDeclaration.overrides v ->
        CalibratorDeclaration.override_specifier d = Noexcept)
  /\ (forall name version self,
        is_Some (getInterfaceInfo name version v self)
        <-> "getInterfaceInfo"%string
              ∈ CalibratorDeclaration.override_name <$> CalibratorDeclaration.overrides v).
Proof.
  assert (Hdecl : "getInterfaceInfo"%string
            ∈ CalibratorDeclaration.override_name <$> CalibratorDeclaration.overrides v
          <-> 10 <= NV_TENSORRT_MAJOR v).
  { unfold CalibratorDeclaration.overrides. rewrite Z.geb_leb.
    destruct (Z.leb_spec 10 (NV_TENSORRT_MAJOR v)); cbn.
    - split; [intros _; assumption | intros _].
      rewrite !elem_of_cons. auto 10.
    - split; [ | lia]. rewrite !elem_of_cons, elem_of_nil.
      intros H'. repeat (destruct H' as [H' | H']; [discriminate H' | ]).
      contradiction. }
  assert (Hspec : forall d, d ∈ CalibratorDeclaration.overrides v ->
            CalibratorDeclaration.override_specifier d = VersionCompat.TRT_NOEXCEPT v).
  { intros d Hd. rewrite (elem_of_overrides v d Hd). reflexivity. }
  split; [exact Hspec | split; [exact Hdecl | split; [ | split; [ | split]]]].
  - unfold CalibratorDeclaration.overrides.
    destruct (NV_TENSORRT_MAJOR v >=? 10); reflexivity.
  - unfold CalibratorDeclaration.overrides.
    destruct (NV_TENSORRT_MAJOR v >=? 10); cbn;
      repeat (apply NoDup_cons; split;
              [rewrite ?elem_of_cons, elem_of_nil; intros H';
               repeat (destruct H' as [H' | H']; [discriminate H' | ]); contradiction | ]);
      apply NoDup_nil; exact I.
  - intros Hin d Hd. rewrite (Hspec d Hd). apply Hdecl in Hin.
    unfold VersionCompat.TRT_NOEXCEPT. rewrite Z.geb_leb.
    destruct (Z.leb_spec 8 (NV_TENSORRT_MAJOR v)); [reflexivity | lia].
  - intros name version self. rewrite Hdecl. unfold getInterfaceInfo.
    rewrite Z.geb_leb. destruct (Z.leb_spec 10 (NV_TENSORRT_MAJOR v)).
    + split; [intros _; assumption | intros _; eexists; reflexivity].
    + split; [intros [x Hx]; discriminate Hx | lia].
Qed.

(** The theorem above on TensorRT 10.0.0: [getBatch] is declared
    [noexcept]. *)
Lemma calibrator_overrides_witness :
  CalibratorDeclaration.override_specifier
    (CalibratorDeclaration.mkOverride "getBatch" false
       (CalibratorDeclaration.TRT_NOEXCEPT trt_10_0_0))
  = Noexcept.
Proof.
  destruct (calibrator_overrides trt_10_0_0) as (_ & Hdecl & _ & _ & Hall & _).
  apply Hall.
  - apply Hdecl. cbn. lia.
  - unfold CalibratorDeclaration.overrides. cbn. rewrite !elem_of_cons. auto.
Defined.

(** The theorem on the code paths on TensorRT 10.0.0. *)
Lemma version_pattern_and_capabilities_witness :
  descriptor_of trt_10_0_0 = VersionOrder.modern_descriptor.
Proof.
  apply (version_pattern_and_capabilities trt_10_0_0). reflexivity.
Defined.

End DeclarationFacts.

(* ===================================================================== *)
(** ** Including the two headers                                         *)
(* ===================================================================== *)

Module PreprocessorFacts.
Import VersionCompat VersionOrder Preprocessor.

Implicit Types (env : gmap string macro) (m : macro) (name : string).

Lemma define_fresh name m env :
  env !! name = None -> define name m env = Some (<[name := m]> env).
Proof. unfold define. intros ->. reflexivity. Qed.

Lemma define_same name m env :
  env !! name = Some m -> define name m env = Some env.
Proof.
  unfold define. intros ->. destruct (decide (m = m)); [reflexivity | contradiction].
Qed.


(** A definition that is accepted leaves every earlier definition alone and
    defines its name. *)
Lemma define_extends name m env env' :
  define name m env = Some env' -> env ⊆ env' /\ env' !! name = Some m.
Proof.
  unfold define. destruct (env !! name) as [m' | ] eqn:E.
  - destruct (decide (m' = m)) as [-> | ]; [ | discriminate].
    intros [= <-]. auto.
  - intros [= <-]. split; [apply insert_subseteq; exact E | apply lookup_insert_eq].
Qed.

Lemma define_if_undefined_extends name m env :
  env ⊆ define_if_undefined name m env.
Proof.
  unfold define_if_undefined. destruct (env !! name) eqn:E; [reflexivity | ].
  apply insert_subseteq; exact E.
Qed.

Lemma trt_version_compat_h_extends v env env' :
  trt_version_compat_h v env = Some env' ->
  env ⊆ env' /\ is_Some (env' !! "TRT_VERSION_COMPAT_H"%string).
Proof.
  unfold trt_version_compat_h.
  destruct (env !! "TRT_VERSION_COMPAT_H"%string) as [g | ] eqn:G.
  - intros [= <-]. split; [reflexivity | rewrite G; eexists; reflexivity].
  - cbn zeta. intros H.
    apply bind_Some in H as (e1 & [S1 _]%define_extends & H).
    apply bind_Some in H as (e2 & [S2 _]%define_extends & H).
    apply bind_Some in H as (e3 & [S3 _]%define_extends & H).
    pose proof (define_if_undefined_extends "IS_NOEXCEPT"
                  (object_like "TRT_NOEXCEPT") e3) as S4.
    apply bind_Some in H as (e5 & [S5 _]%define_extends & H).
    apply bind_Some in H as (e6 & [S6 _]%define_extends & H).
    apply bind_Some in H as (e7 & [S7 _]%define_extends & H).
    apply bind_Some in H as (e8 & [S8 _]%define_extends & H).
    apply define_extends in H as [S9 _].
    assert (Hsub : <["TRT_VERSION_COMPAT_H"%string := object_like ""]> env ⊆ env').
    { repeat (etrans; [eassumption | ]). reflexivity. }
    split.
    + etrans; [apply insert_subseteq; exact G | exact Hsub].
    + exists (object_like ""). eapply lookup_weaken; [ | exact Hsub].
      apply lookup_insert_eq.
Qed.

Lemma Int8Calibrator_h_extends v env env' :
  Int8Calibrator_h v env = Some env' ->
  env ⊆ env' /\ is_Some (env' !! "_ENTROY_CALIBRATOR_H"%string).
Proof.
  unfold Int8Calibrator_h.
  destruct (env !! "_ENTROY_CALIBRATOR_H"%string) as [g | ] eqn:G.
  - intros [= <-]. split; [reflexivity | rewrite G; eexists; reflexivity].
  - cbn zeta. intros [Hsub _]%define_extends. split.
    + etrans; [apply insert_subseteq; exact G | exact Hsub].
    + exists (object_like ""). eapply lookup_weaken; [ | exact Hsub].
      apply lookup_insert_eq.
Qed.

(** X9. An inclusion of either header that is accepted only adds to the
    table of macros: every macro defined before keeps its definition, in
    particular an [IS_NOEXCEPT] defined earlier by a plugin header.  And
    thanks to the include guards, including the header once more changes
    nothing. *)
Theorem inclusion_extends_and_is_idempotent (v : TrtVersion) env env' :
  (trt_version_compat_h v env = Some env' ->
   (forall name m, env !! name = Some m -> env' !! name = Some m)
   /\ trt_version_compat_h v env' = Some env')
  /\ (Int8Calibrator_h v env = Some env' ->
      (forall name m, env !! name = Some m -> env' !! name = Some m)
      /\ Int8Calibrator_h v env' = Some env').
Proof.
  split.
  - intros [Hsub [g Hg]]%trt_version_compat_h_extends. split.
    + intros name m Hm. eapply lookup_weaken; eassumption.
    + unfold trt_version_compat_h. rewrite Hg. reflexivity.
  - intros [Hsub [g Hg]]%Int8Calibrator_h_extends. split.
    + intros name m Hm. eapply lookup_weaken; eassumption.
    + unfold Int8Calibrator_h. rewrite Hg. reflexivity.
Qed.

(** What a table without any of the headers' names says about each name. *)
Lemma fresh_lookups env :
  (forall name, name ∈ header_names -> env !! name = None) ->
  Forall (fun name => env !! name = None) header_names.
Proof. intros H. apply Forall_forall. exact H. Qed.

Ltac lookup_through_inserts :=
  rewrite ?lookup_insert_ne by discriminate;
  first [assumption | apply lookup_insert_eq].

Ltac run_define :=
  first [ rewrite define_fresh by lookup_through_inserts
        | rewrite define_same by lookup_through_inserts ];
  cbn [mbind option_bind].

Ltac run_ifndef G :=
  match goal with
  | |- context [match ?e !! G with _ => _ end] =>
      let E := fresh "E" in
      assert (E : e !! G = None) by lookup_through_inserts;
      rewrite E; clear E; cbn zeta
  end.

(** X10. On a table that defines none of their names, the two headers can be
    included in either order: no [#define] is rejected, although both define
    [TRT_NOEXCEPT], because on every release they define it alike.  Both
    orders end in the same table, in which [TRT_NOEXCEPT] is the release's
    specifier, [IS_NOEXCEPT] stands for [TRT_NOEXCEPT], and every name of the
    two headers is defined. *)
Theorem headers_coexist_in_either_order (v : TrtVersion) env :
  (forall name, name ∈ header_names -> env !! name = None) ->
  exists env',
    Int8Calibrator_h v env ≫= trt_version_compat_h v = Some env'
    /\ trt_version_compat_h v env ≫= Int8Calibrator_h v = Some env'
    /\ env' !! "TRT_NOEXCEPT"%string
       = Some (object_like (specifier_tokens (VersionCompat.TRT_NOEXCEPT v)))
    /\ env' !! "IS_NOEXCEPT"%string = Some (object_like "TRT_NOEXCEPT")
    /\ (forall name, name ∈ header_names -> is_Some (env' !! name))
    /\ env ⊆ env'.
Proof.
  intros Hfresh. apply fresh_lookups in Hfresh.
  unfold header_names, compat_names in Hfresh.
  repeat (apply Forall_cons in Hfresh as [? Hfresh]). clear Hfresh.
  change (CalibratorDeclaration.TRT_NOEXCEPT v) with (VersionCompat.TRT_NOEXCEPT v)
    in *.
  eexists. split; [ | split; [ | split; [ | split; [ | split]]]].
  - unfold Int8Calibrator_h. run_ifndef "_ENTROY_CALIBRATOR_H"%string.
    run_define. unfold trt_version_compat_h.
    run_ifndef "TRT_VERSION_COMPAT_H"%string.
    do 3 run_define. unfold define_if_undefined.
    run_ifndef "IS_NOEXCEPT"%string. do 5 run_define.
    reflexivity.
  - unfold trt_version_compat_h. run_ifndef "TRT_VERSION_COMPAT_H"%string.
    do 3 run_define. unfold define_if_undefined.
    run_ifndef "IS_NOEXCEPT"%string. do 5 run_define.
    unfold Int8Calibrator_h. run_ifndef "_ENTROY_CALIBRATOR_H"%string.
    run_define. f_equal. apply map_eq. intros k.
    repeat (rewrite lookup_insert; case_decide; [reflexivity || (subst k; symmetry; lookup_through_inserts) | ]).
    rewrite !lookup_insert_ne by assumption. reflexivity.
  - lookup_through_inserts.
  - lookup_through_inserts.
  - intros name Hin. unfold header_names, compat_names in Hin.
    rewrite !elem_of_cons, elem_of_nil in Hin.
    repeat (destruct Hin as [-> | Hin];
            [eexists; lookup_through_inserts | ]).
    contradiction.
  - repeat (etrans; [ | apply insert_subseteq; lookup_through_inserts]).
    reflexivity.
Qed.

(** The theorem above on the empty table, for TensorRT 8.6.1. *)
Lemma headers_coexist_in_either_order_witness :
  exists env',
    Int8Calibrator_h trt_8_6_1 ∅ ≫= trt_version_compat_h trt_8_6_1 = Some env'
    /\ trt_version_compat_h trt_8_6_1 ∅ ≫= Int8Calibrator_h trt_8_6_1 = Some env'
    /\ env' !! "TRT_NOEXCEPT"%string = Some (object_like "noexcept").
Proof.
  destruct (headers_coexist_in_either_order trt_8_6_1 ∅) as (env' & HA & HB & HN & _).
  - intros name _. apply lookup_empty.
  - exists env'. split; [exact HA | split; [exact HB | exact HN]].
Defined.

(** The table after [trt_version_compat.h] was included for TensorRT 8.6.1
    behind a plugin header that had defined [IS_NOEXCEPT]. *)
Lemma compat_after_plugin_header :
  exists env', trt_version_compat_h trt_8_6_1 with_IS_NOEXCEPT = Some env'.
Proof. eexists. vm_compute. reflexivity. Defined.

(** The idempotence theorem on that table: the plugin's [IS_NOEXCEPT] is
    kept, and a second inclusion changes nothing. *)
Lemma inclusion_extends_and_is_idempotent_witness :
  exists env',
    trt_version_compat_h trt_8_6_1 with_IS_NOEXCEPT = Some env'
    /\ env' !! "IS_NOEXCEPT"%string = Some (object_like "noexcept")
    /\ trt_version_compat_h trt_8_6_1 env' = Some env'.
Proof.
  destruct compat_after_plugin_header as [env' Henv]. exists env'.
  destruct (inclusion_extends_and_is_idempotent trt_8_6_1 with_IS_NOEXCEPT env')
    as [Hcompat _].
  destruct (Hcompat Henv) as [Hkeep Hagain].
  split; [exact Henv | split; [ | exact Hagain]].
  apply Hkeep. reflexivity.
Defined.




End PreprocessorFacts.
